(** * gitlab-shell: the upload-archive command pipeline and the
      personal-access-token client

    Part I embeds [internal/command/uploadarchive/uploadarchive.go]:
    [Command.Execute] and [Command.verifyAccess], over a small monad that
    threads the state of the external collaborators (the access verifier and
    the Gitaly transport), records every call made to them, and can panic the
    way Go does on a nil dereference or an index out of range.

    Part II models the internal API client and the personal-access-token
    client, whose production code is not part of the sources at hand; the
    test fixture of [internal/gitlabnet/personalaccesstoken/client_test.go]
    is embedded from the source and played against that model. *)

From Stdlib Require Import String Ascii List ZArith Bool Lia.
From Stdlib Require Import DecimalString DecimalZ.
Import ListNotations.
Local Open Scope string_scope.
Set Warnings "-register-all".

(** ** Go basics *)

(** Go's [error] interface: any type with an [Error() string] method. *)
Class GoError (E : Type) : Type := { ErrorText : E -> string }.

(** What a Go call does: it returns, or it panics. *)
Inductive Outcome (A : Type) : Type :=
| Returned (a : A)
| Panicked (reason : string).
Arguments Returned {A} a.
Arguments Panicked {A} reason.

(** ** Package [command]: the audit record *)
Module command.

(** Modelled from the spec: the type [LogData] is declared in
    [internal/command], outside the sources.  The spec (section 6) gives the
    audit record as the flat record {username, project path, project id,
    root-namespace id}; the call site in [Execute] gives the order of the
    constructor's arguments, and the test reads the username as
    [data.Username] and the project path as [data.Meta.Project].  The test
    also reads a [data.Meta.RootNamespace]; neither the call site nor the
    spec says where that name comes from, and it is left out. *)
Record LogMetadata : Type := {
  Project : string;
  ProjectID : Z;
  RootNamespaceID : Z
}.

Record LogData : Type := {
  Username : string;
  Meta : LogMetadata
}.

(** The constructor stores its arguments. *)
Definition NewLogData (project username : string)
           (projectID rootNamespaceID : Z) : LogData :=
  {| Username := username;
     Meta := {| Project := project;
                ProjectID := projectID;
                RootNamespaceID := rootNamespaceID |} |}.

End command.

(** ** Package [context] *)
Module context.

(** Keys are [any] in Go.  The command uses the string key ["logData"];
    the correlation package uses two private key types of its own. *)
Inductive key : Type :=
| StringKey (s : string)
| CorrelationIDKey
| ClientNameKey.

(** The values that the contexts of this program carry. *)
Inductive any : Type :=
| AnyString (s : string)
| AnyLogData (d : command.LogData).

Definition key_eqb (a b : key) : bool :=
  match a, b with
  | StringKey s, StringKey t => String.eqb s t
  | CorrelationIDKey, CorrelationIDKey => true
  | ClientNameKey, ClientNameKey => true
  | _, _ => false
  end.

(** A context is [Background] or a [valueCtx] wrapping its parent. *)
Inductive Context : Type :=
| Background
| WithValue (parent : Context) (k : key) (val : any).

(** [ctx.Value(k)]: the innermost binding of [k], [None] for Go's nil. *)
Fixpoint Value (ctx : Context) (k : key) : option any :=
  match ctx with
  | Background => None
  | WithValue parent k' val =>
      if key_eqb k' k then Some val else Value parent k
  end.

Fixpoint depth (ctx : Context) : nat :=
  match ctx with
  | Background => 0
  | WithValue parent _ _ => S (depth parent)
  end.

End context.

(** ** Package [accessverifier]: the approval result *)
Module accessverifier.

(** The fields of [accessverifier.Response] that [Execute] reads, with the
    routing address that the spec lists in the approval result. *)
Record Repository : Type := {
  GlProjectPath : string
}.

Record GitalyInfo : Type := {
  Repo : Repository;
  Address : string
}.

Record Response : Type := {
  Username : string;
  ProjectID : Z;
  RootNamespaceID : Z;
  Gitaly : GitalyInfo
}.

End accessverifier.

(** ** Packages [commandargs], [config] and [readwriter] *)
Module commandargs.

Record Shell : Type := {
  GitlabUsername : string;
  GitlabKeyId : string;
  SshArgs : list string;
  CommandType : string
}.

End commandargs.

Module config.

Record Config : Type := {
  GitlabUrl : string
}.

End config.

Module readwriter.

(** The streams of the session, each known by its handle. *)
Definition Stream : Type := nat.

Record ReadWriter : Type := {
  Out : Stream;
  In_ : Stream;
  ErrOut : Stream
}.

End readwriter.

(** ** JSON on the wire

    The authority answers with JSON bodies.  [json.parse] is a total
    recursive-descent parser of the JSON grammar and [json.encode] the
    printer the fixture's [json.NewEncoder(w).Encode] stands for. *)
Module json.

Inductive JSON : Type :=
| JNull
| JBool (b : bool)
| JNumber (literal : string)
| JString (s : string)
| JArray (elements : list JSON)
| JObject (members : list (string * JSON)).

Definition dquote : ascii := ascii_of_nat 34.
Definition backslash : ascii := ascii_of_nat 92.

Definition str (c : ascii) : string := String c EmptyString.

Definition is_ws (c : ascii) : bool :=
  let n := nat_of_ascii c in
  ((n =? 32) || (n =? 9) || (n =? 10) || (n =? 13))%nat.

Fixpoint skip_ws (s : string) : string :=
  match s with
  | String c rest => if is_ws c then skip_ws rest else s
  | EmptyString => s
  end.

Definition is_digit (c : ascii) : bool :=
  let n := nat_of_ascii c in ((48 <=? n) && (n <=? 57))%nat.

Definition hex_val (c : ascii) : option N :=
  let n := N_of_ascii c in
  if ((48 <=? n) && (n <=? 57))%N then Some (n - 48)%N
  else if ((97 <=? n) && (n <=? 102))%N then Some (n - 87)%N
  else if ((65 <=? n) && (n <=? 70))%N then Some (n - 55)%N
  else None.

Definition hex4 (a b c d : ascii) : option N :=
  match hex_val a, hex_val b, hex_val c, hex_val d with
  | Some x, Some y, Some z, Some t =>
      Some (((x * 16 + y) * 16 + z) * 16 + t)%N
  | _, _, _, _ => None
  end.

(** UTF-8 encoding of a code point. *)
Definition utf8 (n : N) : string :=
  let byte (k : N) := str (ascii_of_N k) in
  if (n <? 128)%N then byte n
  else if (n <? 2048)%N then
    byte (192 + n / 64)%N ++ byte (128 + n mod 64)%N
  else if (n <? 65536)%N then
    byte (224 + n / 4096)%N ++ byte (128 + (n / 64) mod 64)%N
         ++ byte (128 + n mod 64)%N
  else
    byte (240 + n / 262144)%N ++ byte (128 + (n / 4096) mod 64)%N
         ++ byte (128 + (n / 64) mod 64)%N ++ byte (128 + n mod 64)%N.

Definition is_high (n : N) : bool := ((55296 <=? n) && (n <=? 56319))%N.
Definition is_low (n : N) : bool := ((56320 <=? n) && (n <=? 57343))%N.
Definition replacement : string := utf8 65533%N.

(** A high surrogate waiting for its low half decodes to U+FFFD when the
    low half does not follow. *)
Definition flush (pend : option N) : string :=
  match pend with
  | Some _ => replacement
  | None => EmptyString
  end.

Definition simple_escape (e : ascii) : option string :=
  let n := nat_of_ascii e in
  if (n =? 34)%nat then Some (str dquote)
  else if (n =? 92)%nat then Some (str backslash)
  else if (n =? 47)%nat then Some "/"
  else if (n =? 98)%nat then Some (str (ascii_of_nat 8))
  else if (n =? 102)%nat then Some (str (ascii_of_nat 12))
  else if (n =? 110)%nat then Some (str (ascii_of_nat 10))
  else if (n =? 114)%nat then Some (str (ascii_of_nat 13))
  else if (n =? 116)%nat then Some (str (ascii_of_nat 9))
  else None.

Definition prepend (p : string) (r : option (string * string))
  : option (string * string) :=
  match r with
  | Some (s, rest) => Some (p ++ s, rest)
  | None => None
  end.

(** The characters of a string literal after its opening quote, up to and
    including the closing quote: the decoded string and what follows. *)
Fixpoint string_body (pend : option N) (s : string)
  : option (string * string) :=
  match s with
  | EmptyString => None
  | String c rest =>
      if Ascii.eqb c dquote then Some (flush pend, rest)
      else if Ascii.eqb c backslash then
        match rest with
        | EmptyString => None
        | String e rest' =>
            if Ascii.eqb e "u" then
              match rest' with
              | String h1 (String h2 (String h3 (String h4 rest''))) =>
                  match hex4 h1 h2 h3 h4 with
                  | None => None
                  | Some n =>
                      if is_high n then
                        prepend (flush pend) (string_body (Some n) rest'')
                      else if is_low n then
                        match pend with
                        | Some hi =>
                            prepend
                              (utf8 (65536 + (hi - 55296) * 1024
                                     + (n - 56320))%N)
                              (string_body None rest'')
                        | None =>
                            prepend replacement (string_body None rest'')
                        end
                      else
                        prepend (flush pend ++ utf8 n)
                                (string_body None rest'')
                  end
              | _ => None
              end
            else
              match simple_escape e with
              | Some d => prepend (flush pend ++ d) (string_body None rest')
              | None => None
              end
        end
      else if (nat_of_ascii c <? 32)%nat then None
      else prepend (flush pend ++ str c) (string_body None rest)
  end.

(** Number literals: an optional minus sign; a zero, or a non-zero digit
    and more digits; an optional fraction; an optional exponent. *)
Inductive num_state : Type :=
| NStart | NMinus | NZero | NInt | NDot | NFrac | NExp | NExpSign | NExpDigits.

Definition num_step (st : num_state) (c : ascii) : option num_state :=
  let n := nat_of_ascii c in
  let digit := is_digit c in
  let e := ((n =? 101) || (n =? 69))%nat in
  match st with
  | NStart =>
      if (n =? 45)%nat then Some NMinus
      else if (n =? 48)%nat then Some NZero
      else if digit then Some NInt else None
  | NMinus =>
      if (n =? 48)%nat then Some NZero
      else if digit then Some NInt else None
  | NZero =>
      if (n =? 46)%nat then Some NDot
      else if e then Some NExp else None
  | NInt =>
      if digit then Some NInt
      else if (n =? 46)%nat then Some NDot
      else if e then Some NExp else None
  | NDot => if digit then Some NFrac else None
  | NFrac =>
      if digit then Some NFrac
      else if e then Some NExp else None
  | NExp =>
      if ((n =? 43) || (n =? 45))%nat then Some NExpSign
      else if digit then Some NExpDigits else None
  | NExpSign => if digit then Some NExpDigits else None
  | NExpDigits => if digit then Some NExpDigits else None
  end.

Definition num_final (st : num_state) : bool :=
  match st with
  | NZero | NInt | NFrac | NExpDigits => true
  | _ => false
  end.

Fixpoint number (st : num_state) (s : string) : option (string * string) :=
  let stop := if num_final st then Some (EmptyString, s) else None in
  match s with
  | EmptyString => stop
  | String c rest =>
      match num_step st c with
      | Some st' => prepend (str c) (number st' rest)
      | None => stop
      end
  end.

Fixpoint strip_prefix (p s : string) : option string :=
  match p, s with
  | EmptyString, _ => Some s
  | String a p', String b s' =>
      if Ascii.eqb a b then strip_prefix p' s' else None
  | String _ _, EmptyString => None
  end.

(** [value], [elements] and [members] descend together; every call spends
    one unit of [fuel], and [parse] supplies more than the input can use. *)
Fixpoint value (fuel : nat) (s : string) : option (JSON * string) :=
  match fuel with
  | O => None
  | Datatypes.S fuel' =>
      match skip_ws s with
      | EmptyString => None
      | String c rest as s' =>
          let n := nat_of_ascii c in
          if (n =? 123)%nat then
            match skip_ws rest with
            | String c' rest' =>
                if (nat_of_ascii c' =? 125)%nat then Some (JObject [], rest')
                else members fuel' (String c' rest')
            | EmptyString => None
            end
          else if (n =? 91)%nat then
            match skip_ws rest with
            | String c' rest' =>
                if (nat_of_ascii c' =? 93)%nat then Some (JArray [], rest')
                else elements fuel' (String c' rest')
            | EmptyString => None
            end
          else if (n =? 34)%nat then
            match string_body None rest with
            | Some (str, rest') => Some (JString str, rest')
            | None => None
            end
          else if (n =? 116)%nat then
            option_map (fun r => (JBool true, r)) (strip_prefix "true" s')
          else if (n =? 102)%nat then
            option_map (fun r => (JBool false, r)) (strip_prefix "false" s')
          else if (n =? 110)%nat then
            option_map (fun r => (JNull, r)) (strip_prefix "null" s')
          else
            match number NStart s' with
            | Some (lit, rest') => Some (JNumber lit, rest')
            | None => None
            end
      end
  end

(** The elements of a non-empty array, up to and including its bracket. *)
with elements (fuel : nat) (s : string) : option (JSON * string) :=
  match fuel with
  | O => None
  | Datatypes.S fuel' =>
      match value fuel' s with
      | None => None
      | Some (v, rest) =>
          match skip_ws rest with
          | String c rest' =>
              if (nat_of_ascii c =? 93)%nat then Some (JArray [v], rest')
              else if (nat_of_ascii c =? 44)%nat then
                match elements fuel' rest' with
                | Some (JArray vs, rest'') => Some (JArray (v :: vs), rest'')
                | _ => None
                end
              else None
          | EmptyString => None
          end
      end
  end

(** The members of a non-empty object, up to and including its brace. *)
with members (fuel : nat) (s : string) : option (JSON * string) :=
  match fuel with
  | O => None
  | Datatypes.S fuel' =>
      match skip_ws s with
      | String q rest =>
          if (nat_of_ascii q =? 34)%nat then
            match string_body None rest with
            | None => None
            | Some (k, rest1) =>
                match skip_ws rest1 with
                | String colon rest2 =>
                    if (nat_of_ascii colon =? 58)%nat then
                      match value fuel' rest2 with
                      | None => None
                      | Some (v, rest3) =>
                          match skip_ws rest3 with
                          | String c rest4 =>
                              if (nat_of_ascii c =? 125)%nat then
                                Some (JObject [(k, v)], rest4)
                              else if (nat_of_ascii c =? 44)%nat then
                                match members fuel' rest4 with
                                | Some (JObject kvs, rest5) =>
                                    Some (JObject ((k, v) :: kvs), rest5)
                                | _ => None
                                end
                              else None
                          | EmptyString => None
                          end
                      end
                    else None
                | EmptyString => None
                end
            end
          else None
      | EmptyString => None
      end
  end.

(** A body is valid JSON when it is one value, surrounded by white space
    at most. *)
Definition parse (s : string) : option JSON :=
  match value (2 * String.length s + 2) s with
  | Some (v, rest) =>
      match skip_ws rest with
      | EmptyString => Some v
      | String _ _ => None
      end
  | None => None
  end.

(** The member of an object by its name; the last one when a name
    repeats, as the decoder has it. *)
Fixpoint assoc (k : string) (kvs : list (string * JSON)) : option JSON :=
  match kvs with
  | [] => None
  | (k', v) :: kvs' =>
      match assoc k kvs' with
      | Some v' => Some v'
      | None => if String.eqb k' k then Some v else None
      end
  end.

Definition field (k : string) (j : JSON) : option JSON :=
  match j with
  | JObject kvs => assoc k kvs
  | _ => None
  end.

Definition hex_digit (n : N) : ascii :=
  if (n <? 10)%N then ascii_of_N (48 + n)%N else ascii_of_N (87 + n)%N.

Definition u00 (n : N) : string :=
  str backslash ++ "u00" ++ str (hex_digit (n / 16)%N)
      ++ str (hex_digit (n mod 16)%N).

(** The encoder's escapes: the quote, the backslash, control characters,
    and the characters it escapes for HTML. *)
Definition escape_char (c : ascii) : string :=
  let n := N_of_ascii c in
  if (n =? 34)%N then str backslash ++ str dquote
  else if (n =? 92)%N then str backslash ++ str backslash
  else if (n =? 10)%N then str backslash ++ "n"
  else if (n =? 13)%N then str backslash ++ "r"
  else if (n =? 9)%N then str backslash ++ "t"
  else if ((n <? 32) || (n =? 60) || (n =? 62) || (n =? 38))%N then u00 n
  else str c.

Fixpoint escape (s : string) : string :=
  match s with
  | EmptyString => EmptyString
  | String c rest => escape_char c ++ escape rest
  end.

Definition quote (s : string) : string :=
  str dquote ++ escape s ++ str dquote.

Fixpoint encode (j : JSON) : string :=
  match j with
  | JNull => "null"
  | JBool true => "true"
  | JBool false => "false"
  | JNumber lit => lit
  | JString s => quote s
  | JArray vs =>
      "[" ++ String.concat "," (List.map encode vs) ++ "]"
  | JObject kvs =>
      let member (kv : string * JSON) :=
        quote (fst kv) ++ ":" ++ encode (snd kv) in
      "{" ++ String.concat "," (List.map member kvs) ++ "}"
  end.

End json.

(** ** HTTP as the fixture and the client see it *)
Module http.

Record Response : Type := {
  StatusCode : Z;
  Body : string
}.

Definition StatusOK : Z := 200.
Definition StatusForbidden : Z := 403.
Definition StatusNotFound : Z := 404.

(** [http.ResponseWriter]: the status line goes out with [WriteHeader] or
    with the first [Write], whichever comes first. *)
Record ResponseWriter : Type := {
  wroteHeader : bool;
  status : Z;
  written : string
}.

Definition NewRecorder : ResponseWriter :=
  {| wroteHeader := false; status := StatusOK; written := EmptyString |}.

Definition WriteHeader (code : Z) (w : ResponseWriter) : ResponseWriter :=
  if wroteHeader w then w
  else {| wroteHeader := true; status := code; written := written w |}.

Definition Write (b : string) (w : ResponseWriter) : ResponseWriter :=
  let w' := WriteHeader StatusOK w in
  {| wroteHeader := true; status := status w'; written := written w' ++ b |}.

(** [json.NewEncoder(w).Encode(v)]: the value and a newline. *)
Definition Encode (v : json.JSON) (w : ResponseWriter) : ResponseWriter :=
  Write (json.encode v ++ json.str (ascii_of_nat 10)) w.

Definition Result (w : ResponseWriter) : Response :=
  {| StatusCode := status w; Body := written w |}.

End http.

(** ** Package [discover] *)
Module discover.

Record Response : Type := {
  UserId : Z;
  Username : string;
  Name : string
}.

End discover.

(** ** Package [client]: the internal API client *)
Module client.
Import json.

(** Modelled from the spec: the error taxonomy of section 7.  The Go type
    of these errors is declared outside the sources. *)
Inductive ErrorKind : Type :=
| Disallowed
| AuthorityMessage
| ParseFailure
| BareStatusFailure
| TransportFailure
| Cancelled.

(** Modelled from the spec: the Error Value of section 3, a kind with a
    human-readable message and, where applicable, an HTTP status code. *)
Record Error : Type := {
  Kind : ErrorKind;
  Message : string;
  Status : option Z
}.

#[global] Instance Error_GoError : GoError Error :=
  {| ErrorText := Message |}.

(** What the transport hands back for one request. *)
Inductive RoundTrip : Type :=
| Responded (r : http.Response)
| Unreachable
| ContextDone.

Definition decimal (z : Z) : string :=
  DecimalString.NilZero.string_of_int (Z.to_int z).

Definition is2xx (code : Z) : bool := ((200 <=? code) && (code <=? 299))%Z.

(** Modelled from the spec: the fixed parsing-failure error of sections
    4.1 and 7; its text is what the test expects. *)
Definition ParsingError : Error :=
  {| Kind := ParseFailure; Message := "Parsing failed"; Status := None |}.

(** Modelled from the spec: the error synthesized from a bare status
    (section 4.1); the test pins the text down, capital letter included. *)
Definition statusError (code : Z) : Error :=
  {| Kind := BareStatusFailure;
     Message := "Internal API error (" ++ decimal code ++ ")";
     Status := Some code |}.

Definition authorityError (msg : string) (code : Z) : Error :=
  {| Kind := AuthorityMessage; Message := msg; Status := Some code |}.

Definition successOf (j : JSON) : bool :=
  match field "success" j with
  | Some (JBool true) => true
  | _ => false
  end.

Definition messageOf (j : JSON) : option string :=
  match field "message" j with
  | Some (JString m) => Some m
  | _ => None
  end.

(** The message that a body carries, if it decodes and has one. *)
Definition bodyMessage (body : string) : option string :=
  match parse body with
  | Some j => messageOf j
  | None => None
  end.

(** Modelled from the spec: the decode-then-branch normalization of
    section 4.1 (the production code of the client is outside the sources).
    The body is decoded first, then the status class decides:
    - 2xx, undecodable: the fixed parsing error;
    - 2xx, [success == true]: the decoded envelope;
    - a [message] in the body: that message, verbatim;
    - otherwise: the error synthesized from the status code. *)
Definition interpret (r : http.Response) : JSON + Error :=
  let code := http.StatusCode r in
  let failure :=
    match bodyMessage (http.Body r) with
    | Some m => authorityError m code
    | None => statusError code
    end in
  if is2xx code then
    match parse (http.Body r) with
    | None => inr ParsingError
    | Some j => if successOf j then inl j else inr failure
    end
  else inr failure.

Section Call.

(** The request envelope of the typed client that calls. *)
Variable Envelope : Type.

Record Request : Type := {
  Method : string;
  Path : string;
  Secret : string;
  TraceID : string;
  Payload : Envelope
}.

(** The remote authority, reached through the transport. *)
Variable authority : Request -> RoundTrip.

(** Modelled from the spec: [call(method, path, requestEnvelope, traceID)]
    of section 4.1.  One request, no retry. *)
Definition call (secret method path : string) (envelope : Envelope)
           (traceID : string) : JSON + Error :=
  match authority {| Method := method; Path := path; Secret := secret;
                     TraceID := traceID; Payload := envelope |} with
  | Responded r => interpret r
  | Unreachable =>
      inr {| Kind := TransportFailure;
             Message := "Internal API unreachable"; Status := None |}
  | ContextDone =>
      inr {| Kind := Cancelled;
             Message := "context canceled"; Status := None |}
  end.

End Call.

Arguments Method {Envelope} _.
Arguments Path {Envelope} _.
Arguments Secret {Envelope} _.
Arguments TraceID {Envelope} _.
Arguments Payload {Envelope} _.
Arguments call {Envelope} authority secret method path envelope traceID.

End client.

(** ** Package [personalaccesstoken] *)
Module personalaccesstoken.
Import json.

(** The request body as the fixture's handler reads it ([KeyID], [UserID]),
    with the operation's own fields; [ExpiresAt = None] is the explicit
    null of the spec. *)
Record RequestBody : Type := {
  KeyID : string;
  UserID : Z;
  Name : string;
  Scopes : list string;
  ExpiresAt : option string
}.

(** [Response], in the field order of the test's positional literal. *)
Record Response : Type := {
  Success : bool;
  Token : string;
  Scopes_ : list string;
  ExpiresAt_ : string;
  Message : string
}.

Definition stringField (k : string) (j : JSON) : string :=
  match field k j with
  | Some (JString v) => v
  | _ => EmptyString
  end.

Fixpoint strings (vs : list JSON) : list string :=
  match vs with
  | [] => []
  | JString v :: vs' => v :: strings vs'
  | _ :: vs' => strings vs'
  end.

Definition stringsField (k : string) (j : JSON) : list string :=
  match field k j with
  | Some (JArray vs) => strings vs
  | _ => []
  end.

(** Modelled from the spec: the success payload of section 4.2, the decoded
    fields taken as they are; the expiry stays the string the authority
    sent. *)
Definition decode (j : JSON) : Response :=
  {| Success := client.successOf j;
     Token := stringField "token" j;
     Scopes_ := stringsField "scopes" j;
     ExpiresAt_ := stringField "expires_at" j;
     Message := stringField "message" j |}.

Definition endpoint : string := "/api/v4/internal/personal_access_token".

Section Client.

Variable authority : client.Request RequestBody -> client.RoundTrip.

(** The discovery client, which resolves a username; its code and its
    wire schema are outside the sources. *)
Variable getUser : string -> discover.Response + client.Error.

Variable secret : string.

Definition traceID (ctx : context.Context) : string :=
  match context.Value ctx context.CorrelationIDKey with
  | Some (context.AnyString id) => id
  | _ => EmptyString
  end.

(** Modelled from the spec: the envelope of section 4.2 carries exactly
    one principal reference, the token's name, the scopes and the expiry
    (absent is null). *)
Definition getRequestBody (args : commandargs.Shell) (name : string)
           (scopes : list string) (expiresAt : string)
  : RequestBody + client.Error :=
  let expiry :=
    if String.eqb expiresAt EmptyString then None else Some expiresAt in
  if negb (String.eqb (commandargs.GitlabKeyId args) EmptyString) then
    inl {| KeyID := commandargs.GitlabKeyId args; UserID := 0;
           Name := name; Scopes := scopes; ExpiresAt := expiry |}
  else
    match getUser (commandargs.GitlabUsername args) with
    | inl user =>
        inl {| KeyID := EmptyString; UserID := discover.UserId user;
               Name := name; Scopes := scopes; ExpiresAt := expiry |}
    | inr e => inr e
    end.

(** Modelled from the spec: [issue(principal, name, scopes, expiresAt)] of
    section 4.2, under the name and the signature the test calls it by.
    Every error of the internal API client passes through unchanged. *)
Definition GetPersonalAccessToken (ctx : context.Context)
           (args : commandargs.Shell) (name : string)
           (scopes : list string) (expiresAt : string)
  : Response + client.Error :=
  match getRequestBody args name scopes expiresAt with
  | inr e => inr e
  | inl body =>
      match client.call authority secret "POST" endpoint body
                        (traceID ctx) with
      | inl j => inl (decode j)
      | inr e => inr e
      end
  end.

(** The one request that an issuance with this envelope sends. *)
Definition sent (ctx : context.Context) (body : RequestBody)
  : client.Request RequestBody :=
  {| client.Method := "POST"; client.Path := endpoint;
     client.Secret := secret; client.TraceID := traceID ctx;
     client.Payload := body |}.

(** The authority answers the issuance with the HTTP response [r]. *)
Definition answered (ctx : context.Context) (args : commandargs.Shell)
           (name : string) (scopes : list string) (expiresAt : string)
           (r : http.Response) : Prop :=
  exists body,
    getRequestBody args name scopes expiresAt = inl body
    /\ authority (sent ctx body) = client.Responded r.

End Client.

(** *** The fixture of [client_test.go] *)
Module fixture.

Definition obj := JObject.
Definition strs (l : list string) : JSON := JArray (List.map JString l).

(** The handler of [/api/v4/internal/personal_access_token].  A Go map
    is encoded with its keys sorted. *)
Definition personal_access_token (requestBody : RequestBody)
           (w : http.ResponseWriter) : http.ResponseWriter :=
  let k := KeyID requestBody in
  let w :=
    if String.eqb k "0" then
      http.Encode
        (obj [("expires_at", JString "9001-11-17");
              ("scopes", strs ["read_api"; "read_repository"]);
              ("success", JBool true);
              ("token", JString "aAY1G3YPeemECgUvxuXY")]) w
    else if String.eqb k "1" then
      http.Encode
        (obj [("message", JString "missing user");
              ("success", JBool false)]) w
    else if String.eqb k "2" then
      http.Encode (obj [("message", JString "Not allowed!")])
                  (http.WriteHeader http.StatusForbidden w)
    else if String.eqb k "3" then
      http.Write ("{ " ++ str dquote ++ "message" ++ str dquote ++ ": "
                       ++ str dquote ++ "broken json!" ++ str dquote) w
    else if String.eqb k "4" then
      http.WriteHeader http.StatusForbidden w
    else w in
  if (UserID requestBody =? 1)%Z then
    http.Encode
      (obj [("expires_at", JNull);
            ("scopes", strs ["api"]);
            ("success", JBool true);
            ("token", JString "YXuxvUgCEmeePY3G1YAa")]) w
  else w.

(** The test server: the handler registered for the path, or the
    multiplexer's 404. *)
Definition server (r : client.Request RequestBody) : client.RoundTrip :=
  if String.eqb (client.Path r) endpoint then
    client.Responded
      (http.Result (personal_access_token (client.Payload r)
                                          http.NewRecorder))
  else
    client.Responded
      {| http.StatusCode := http.StatusNotFound;
         http.Body := "404 page not found" ++ str (ascii_of_nat 10) |}.

(** What the handler of [/api/v4/internal/discover] answers, whoever is
    asked for. *)
Definition getUser (username : string) : discover.Response + client.Error :=
  inl {| discover.UserId := 1;
         discover.Username := "jane-doe";
         discover.Name := "Jane Doe" |}.

(** [setup(t)] and a call through the client it builds. *)
Definition GetPersonalAccessToken :=
  GetPersonalAccessToken server getUser EmptyString.

Definition answered := answered server getUser EmptyString.

(** The envelope that the client sends for [id] and a token named
    ["newtoken"], and the response that the server gives it. *)
Definition envelope (id : string) (scopes : list string) : RequestBody :=
  {| KeyID := id; UserID := 0; Name := "newtoken"; Scopes := scopes;
     ExpiresAt := None |}.

Definition response (id : string) (scopes : list string) : http.Response :=
  http.Result (personal_access_token (envelope id scopes) http.NewRecorder).

(** An authority that grants a token with an expiry no calendar knows. *)
Definition oddExpiry (_ : client.Request RequestBody) : client.RoundTrip :=
  client.Responded
    {| http.StatusCode := http.StatusOK;
       http.Body :=
         encode (obj [("expires_at", JString "the day after tomorrow");
                      ("scopes", strs ["api"]);
                      ("success", JBool true);
                      ("token", JString "t0k3n")]) |}.

Definition keyId (id : string) : commandargs.Shell :=
  {| commandargs.GitlabUsername := EmptyString;
     commandargs.GitlabKeyId := id;
     commandargs.SshArgs := [];
     commandargs.CommandType := EmptyString |}.

Definition username (u : string) : commandargs.Shell :=
  {| commandargs.GitlabUsername := u;
     commandargs.GitlabKeyId := EmptyString;
     commandargs.SshArgs := [];
     commandargs.CommandType := EmptyString |}.

End fixture.

End personalaccesstoken.

(** ** Package [uploadarchive] *)
Module uploadarchive.
Import context.

(** [Config], [Args] and [ReadWriter] are pointers in Go; a [Command] is
    built by the command factory with all three set. *)
Record Command : Type := {
  Config : config.Config;
  Args : commandargs.Shell;
  ReadWriter : readwriter.ReadWriter
}.

(** The calls that leave the process. *)
Inductive Event : Type :=
| EvVerify (ctx : Context) (action repo : string)
| EvGitalyCall (ctx : Context) (response : accessverifier.Response).

Definition isGitalyCall (e : Event) : bool :=
  match e with
  | EvGitalyCall _ _ => true
  | EvVerify _ _ _ => false
  end.

Definition isVerify (e : Event) : bool :=
  match e with
  | EvVerify _ _ _ => true
  | EvGitalyCall _ _ => false
  end.

Definition gitalyCalls (t : list Event) : nat :=
  List.length (List.filter isGitalyCall t).

Definition verifyCalls (t : list Event) : nat :=
  List.length (List.filter isVerify t).

(** *** What the tests of [uploadarchive_test.go] set up

    The request handlers and the Gitaly test server are outside the
    sources; the collaborators below answer what the tests read back. *)
Module fixture.

Definition setup (keyId : string) : Command :=
  {| Config := {| config.GitlabUrl := "http://127.0.0.1" |};
     Args := {| commandargs.GitlabUsername := EmptyString;
                commandargs.GitlabKeyId := keyId;
                commandargs.SshArgs := ["git-upload-archive"; "group/repo"];
                commandargs.CommandType := "git-upload-archive" |};
     ReadWriter := {| readwriter.Out := 1; readwriter.In_ := 0;
                      readwriter.ErrOut := 1 |} |}.

Definition withArgs (args : list string) : Command :=
  {| Config := Config (setup "1");
     Args := {| commandargs.GitlabUsername := EmptyString;
                commandargs.GitlabKeyId := "1";
                commandargs.SshArgs := args;
                commandargs.CommandType := "git-upload-archive" |};
     ReadWriter := ReadWriter (setup "1") |}.

Definition approval : accessverifier.Response :=
  {| accessverifier.Username := "alex-doe";
     accessverifier.ProjectID := 2;
     accessverifier.RootNamespaceID := 1;
     accessverifier.Gitaly :=
       {| accessverifier.Repo :=
            {| accessverifier.GlProjectPath := "group/project-path" |};
          accessverifier.Address := "unix:gitaly.socket" |} |}.

Definition disallowedByAPI : client.Error :=
  {| client.Kind := client.Disallowed;
     client.Message := "Disallowed by API call";
     client.Status := Some 403%Z |}.

Definition disallowedCommand : client.Error :=
  {| client.Kind := client.Disallowed;
     client.Message := "Disallowed command";
     client.Status := None |}.

Definition gitalyDown : client.Error :=
  {| client.Kind := client.TransportFailure;
     client.Message := "connection refused";
     client.Status := None |}.

(** The collaborators count the requests they receive. *)
Definition allowed (_ : config.Config) (_ : commandargs.Shell)
           (_ : readwriter.ReadWriter) (_ : Context) (_ _ : string)
           (n : nat)
  : (option accessverifier.Response * option client.Error) * nat :=
  ((Some approval, None), Datatypes.S n).

Definition forbidden (_ : config.Config) (_ : commandargs.Shell)
           (_ : readwriter.ReadWriter) (_ : Context) (_ _ : string)
           (n : nat)
  : (option accessverifier.Response * option client.Error) * nat :=
  ((None, Some disallowedByAPI), Datatypes.S n).

Definition gitalyOK (_ : Command) (_ : Context)
           (_ : accessverifier.Response) (n : nat)
  : option client.Error * nat :=
  (None, Datatypes.S n).

Definition gitalyFails (_ : Command) (_ : Context)
           (_ : accessverifier.Response) (n : nat)
  : option client.Error * nat :=
  (Some gitalyDown, Datatypes.S n).


(** The context of [TestAllowedAccess]. *)
Definition testContext : Context :=
  WithValue (WithValue Background CorrelationIDKey (AnyString "01HZX"))
            ClientNameKey (AnyString "gitlab-shell-tests").

End fixture.

Section Pipeline.

(** The dynamic type of the errors in play, and the sentinel
    [disallowedcommand.Error], declared in a package outside the
    sources. *)
Context {error : Type} `{GoError error}.
Variable disallowedcommand_Error : error.

(** The state of everything outside the process: the authority, the
    Gitaly server, the streams. *)
Variable S : Type.

(** [accessverifier.Command.Verify]: it returns a [*Response] (nil is
    [None]) and an [error] (nil is [None]). *)
Variable Verify :
  config.Config -> commandargs.Shell -> readwriter.ReadWriter ->
  Context -> string -> string ->
  S -> (option accessverifier.Response * option error) * S.

(** The body of [Command.performGitalyCall], which another file of the
    package defines. *)
Variable gitalyCall :
  Command -> Context -> accessverifier.Response -> S -> option error * S.

Record World : Type := {
  trace : list Event;
  ext : S
}.

Definition M (A : Type) : Type := World -> Outcome A * World.

Definition ret {A} (a : A) : M A := fun w => (Returned a, w).

Definition bind {A B} (m : M A) (f : A -> M B) : M B :=
  fun w =>
    match m w with
    | (Returned a, w') => f a w'
    | (Panicked r, w') => (Panicked r, w')
    end.

Definition panic {A} (reason : string) : M A :=
  fun w => (Panicked reason, w).

Notation "x <- m ;; k" := (bind m (fun x => k))
  (at level 61, m at next level, right associativity).
Notation "' pat <- m ;; k" := (bind m (fun x => match x with pat => k end))
  (at level 61, pat pattern, m at next level, right associativity).

(** [a[i]] *)
Definition index (a : list string) (i : nat) : M string :=
  match nth_error a i with
  | Some x => ret x
  | None => panic "index out of range"
  end.

(** Reading a field through a [*Response]. *)
Definition deref (p : option accessverifier.Response)
  : M accessverifier.Response :=
  match p with
  | Some r => ret r
  | None => panic "nil pointer dereference"
  end.

Definition verifyAccess (c : Command) (ctx : Context) (repo : string)
  : M (option accessverifier.Response * option error) :=
  fun w =>
    let action := commandargs.CommandType (Args c) in
    let '(r, s') :=
      Verify (Config c) (Args c) (ReadWriter c) ctx action repo (ext w) in
    (Returned r,
     {| trace := trace w ++ [EvVerify ctx action repo]; ext := s' |}).

Definition performGitalyCall (c : Command) (ctx : Context)
           (response : accessverifier.Response) : M (option error) :=
  fun w =>
    let '(e, s') := gitalyCall c ctx response (ext w) in
    (Returned e,
     {| trace := trace w ++ [EvGitalyCall ctx response]; ext := s' |}).

Definition Execute (c : Command) (ctx : Context)
  : M (Context * option error) :=
  let args := commandargs.SshArgs (Args c) in
  if negb (List.length args =? 2)%nat then
    ret (ctx, Some disallowedcommand_Error)
  else
    repo <- index args 1 ;;
    ' (response, err) <- verifyAccess c ctx repo ;;
    match err with
    | Some e => ret (ctx, Some e)
    | None =>
        r <- deref response ;;
        let logData :=
          command.NewLogData
            (accessverifier.GlProjectPath
               (accessverifier.Repo (accessverifier.Gitaly r)))
            (accessverifier.Username r)
            (accessverifier.ProjectID r)
            (accessverifier.RootNamespaceID r) in
        let ctxWithLogData :=
          WithValue ctx (StringKey "logData") (AnyLogData logData) in
        e <- performGitalyCall c ctx r ;;
        ret (ctxWithLogData, e)
    end.

(** The answer of the access verifier to this command, asked for [repo]
    in the state [s]. *)
Definition verdict (c : Command) (ctx : Context) (repo : string) (s : S)
  : (option accessverifier.Response * option error) * S :=
  Verify (Config c) (Args c) (ReadWriter c) ctx
         (commandargs.CommandType (Args c)) repo s.

(** [ctxWithLogData], as [Execute] builds it from the input context and the
    approval. *)
Definition ctxWithLogData (ctx : Context) (r : accessverifier.Response)
  : Context :=
  WithValue ctx (StringKey "logData")
    (AnyLogData
       (command.NewLogData
          (accessverifier.GlProjectPath
             (accessverifier.Repo (accessverifier.Gitaly r)))
          (accessverifier.Username r)
          (accessverifier.ProjectID r)
          (accessverifier.RootNamespaceID r))).

(** *** Properties of [Execute] *)

Lemma WithValue_fresh (ctx : Context) (k : key) (v : any) :
  WithValue ctx k v <> ctx.
Proof.
  intros E. apply (f_equal depth) in E. simpl in E. lia.
Qed.

Lemma gitalyCalls_app (t u : list Event) :
  gitalyCalls (t ++ u) = gitalyCalls t + gitalyCalls u.
Proof.
  unfold gitalyCalls. rewrite List.filter_app, List.length_app.
  reflexivity.
Qed.

(** With two arguments, [Execute] reaches the access verifier. *)
Lemma Execute_two_args (c : Command) (ctx : Context) (w : World)
      (name repo : string) :
  commandargs.SshArgs (Args c) = [name; repo] ->
  Execute c ctx w =
  (' (response, err) <- verifyAccess c ctx repo ;;
   match err with
   | Some e => ret (ctx, Some e)
   | None =>
       r <- deref response ;;
       e <- performGitalyCall c ctx r ;;
       ret (WithValue ctx (StringKey "logData")
              (AnyLogData
                 (command.NewLogData
                    (accessverifier.GlProjectPath
                       (accessverifier.Repo (accessverifier.Gitaly r)))
                    (accessverifier.Username r)
                    (accessverifier.ProjectID r)
                    (accessverifier.RootNamespaceID r))), e)
   end) w.
Proof.
  intros E. unfold Execute. rewrite E. reflexivity.
Qed.

(** A verifier that returns neither a response nor an error makes
    [Execute] panic on [response.Gitaly], after the one call. *)
Lemma Execute_nil_response (c : Command) (ctx : Context) (w : World)
      (name repo : string) (s' : S) :
  commandargs.SshArgs (Args c) = [name; repo] ->
  verdict c ctx repo (ext w) = ((None, None), s') ->
  Execute c ctx w =
  (Panicked "nil pointer dereference",
   {| trace := trace w
               ++ [EvVerify ctx (commandargs.CommandType (Args c)) repo];
      ext := s' |}).
Proof.
  intros Hargs Hv.
  rewrite (Execute_two_args _ _ _ _ _ Hargs).
  unfold bind, verifyAccess. unfold verdict in Hv. rewrite Hv. reflexivity.
Qed.

(** C1. When the access verifier answers with an error, [Execute]
    returns the input context and that very error, whose text is
    therefore the verifier's text, and the only call that left the
    process is the one to the verifier: [performGitalyCall] is not
    invoked, and the outside world is as the verifier left it. *)
Theorem Execute_denied (c : Command) (ctx : Context) (w : World)
        (name repo : string) (response : option accessverifier.Response)
        (e : error) (s' : S) :
  commandargs.SshArgs (Args c) = [name; repo] ->
  verdict c ctx repo (ext w) = ((response, Some e), s') ->
  exists e' w',
    Execute c ctx w = (Returned (ctx, Some e'), w')
    /\ e' = e
    /\ ErrorText e' = ErrorText e
    /\ trace w' =
       (trace w
          ++ [EvVerify ctx (commandargs.CommandType (Args c)) repo])%list
    /\ gitalyCalls (trace w') = gitalyCalls (trace w)
    /\ ext w' = s'.
Proof.
  intros Hargs Hv.
  rewrite (Execute_two_args _ _ _ _ _ Hargs).
  unfold bind, verifyAccess. unfold verdict in Hv. rewrite Hv.
  exists e. eexists. split; [reflexivity|]. simpl.
  repeat split.
  rewrite gitalyCalls_app. cbv [gitalyCalls List.filter isGitalyCall].
  simpl. lia.
Qed.

(** C2. With a two-element argument vector and an approval from the
    access verifier, [Execute] returns a context whose ["logData"] value
    is an audit record with the username, the project path, the project
    id and the root-namespace id of the approval, together with whatever
    the backend delegation returned, be it nil or an error. *)
Theorem Execute_approved_audit (c : Command) (ctx : Context) (w : World)
        (name repo : string) (r : accessverifier.Response) (s1 : S) :
  commandargs.SshArgs (Args c) = [name; repo] ->
  verdict c ctx repo (ext w) = ((Some r, None), s1) ->
  exists ctx' w' d,
    Execute c ctx w = (Returned (ctx', fst (gitalyCall c ctx r s1)), w')
    /\ Value ctx' (StringKey "logData") = Some (AnyLogData d)
    /\ command.Username d = accessverifier.Username r
    /\ command.Project (command.Meta d) =
       accessverifier.GlProjectPath
         (accessverifier.Repo (accessverifier.Gitaly r))
    /\ command.ProjectID (command.Meta d) = accessverifier.ProjectID r
    /\ command.RootNamespaceID (command.Meta d) =
       accessverifier.RootNamespaceID r.
Proof.
  intros Hargs Hv.
  rewrite (Execute_two_args _ _ _ _ _ Hargs).
  unfold bind, verifyAccess, performGitalyCall, deref, ret.
  unfold verdict in Hv. rewrite Hv. simpl.
  destruct (gitalyCall c ctx r s1) as [ge s2]. simpl.
  do 3 eexists. split; [reflexivity|].
  simpl. repeat split.
Qed.

(** C3. When the argument vector does not have exactly two elements,
    [Execute] returns the input context with [disallowedcommand.Error]
    and leaves the world as it found it: no call to the access verifier,
    none to the backend. *)
Theorem Execute_wrong_arity (c : Command) (ctx : Context) (w : World) :
  List.length (commandargs.SshArgs (Args c)) <> 2 ->
  Execute c ctx w = (Returned (ctx, Some disallowedcommand_Error), w)
  /\ verifyCalls (trace (snd (Execute c ctx w))) = verifyCalls (trace w)
  /\ gitalyCalls (trace (snd (Execute c ctx w))) = gitalyCalls (trace w).
Proof.
  intros Hlen.
  assert (E : Execute c ctx w =
              (Returned (ctx, Some disallowedcommand_Error), w)).
  { unfold Execute.
    destruct (Nat.eqb_spec (List.length (commandargs.SshArgs (Args c))) 2)
      as [Heq|_]; [contradiction|reflexivity]. }
  rewrite E. repeat split.
Qed.

(** C9. When [Execute] fails before an approval, on the arity of the
    arguments or on the answer of the access verifier, the context it
    returns is the input context itself. *)
Theorem Execute_failure_keeps_context (c : Command) (ctx : Context)
        (w : World) :
  (List.length (commandargs.SshArgs (Args c)) <> 2
   \/ exists name repo,
        commandargs.SshArgs (Args c) = [name; repo]
        /\ snd (fst (verdict c ctx repo (ext w))) <> None) ->
  exists ctx' e w',
    Execute c ctx w = (Returned (ctx', Some e), w')
    /\ ctx' = ctx
    /\ Value ctx' (StringKey "logData") = Value ctx (StringKey "logData").
Proof.
  intros [Hlen | (name & repo & Hargs & Hfail)].
  - exists ctx, disallowedcommand_Error, w.
    split; [|split; reflexivity].
    unfold Execute.
    destruct (Nat.eqb_spec (List.length (commandargs.SshArgs (Args c))) 2)
      as [Heq|_]; [contradiction|reflexivity].
  - rewrite (Execute_two_args _ _ _ _ _ Hargs).
    unfold bind, verifyAccess. unfold verdict in Hfail.
    destruct (Verify (Config c) (Args c) (ReadWriter c) ctx
                     (commandargs.CommandType (Args c)) repo (ext w))
      as [[response [e|]] s'] eqn:Hv; simpl in Hfail; [|congruence].
    do 3 eexists. repeat split.
Qed.

(** C10. On an approval, the backend delegation is called once, after
    the verifier, with the input context; the context that carries the
    audit record is another one, returned to the caller only. *)
Theorem Execute_backend_gets_input_context (c : Command) (ctx : Context)
        (w : World) (name repo : string) (r : accessverifier.Response)
        (s1 : S) :
  commandargs.SshArgs (Args c) = [name; repo] ->
  verdict c ctx repo (ext w) = ((Some r, None), s1) ->
  exists ctx' err w',
    Execute c ctx w = (Returned (ctx', err), w')
    /\ trace w' =
       (trace w
          ++ [EvVerify ctx (commandargs.CommandType (Args c)) repo;
              EvGitalyCall ctx r])%list
    /\ (err, ext w') = gitalyCall c ctx r s1
    /\ ctx' <> ctx
    /\ exists d, ctx' = WithValue ctx (StringKey "logData") (AnyLogData d).
Proof.
  intros Hargs Hv.
  rewrite (Execute_two_args _ _ _ _ _ Hargs).
  unfold bind, verifyAccess, performGitalyCall, deref, ret.
  unfold verdict in Hv. rewrite Hv. simpl.
  destruct (gitalyCall c ctx r s1) as [ge s2]. simpl.
  do 3 eexists. split; [reflexivity|]. simpl.
  split; [rewrite <- List.app_assoc; reflexivity|].
  split; [reflexivity|].
  split; [apply WithValue_fresh|].
  eexists. reflexivity.
Qed.

(** *** Every run of [Execute] *)

Lemma key_eqb_eq (a b : key) : key_eqb a b = true <-> a = b.
Proof.
  destruct a as [s| |], b as [t| |]; simpl; split; intros E;
    try discriminate; try reflexivity.
  - apply String.eqb_eq in E. now subst.
  - injection E as ->. apply String.eqb_refl.
Qed.

Lemma Value_WithValue (parent : Context) (k' k : key) (v : any) :
  Value (WithValue parent k' v) k
  = if key_eqb k' k then Some v else Value parent k.
Proof. reflexivity. Qed.

(** The four ways a run can go: the arity check fails; the verifier returns
    an error; the verifier returns nothing at all; the verifier approves and
    the backend is called. *)
Lemma Execute_cases (c : Command) (ctx : Context) (w : World) :
  (List.length (commandargs.SshArgs (Args c)) <> 2
   /\ Execute c ctx w = (Returned (ctx, Some disallowedcommand_Error), w))
  \/ (exists name repo response e s',
         commandargs.SshArgs (Args c) = [name; repo]
         /\ verdict c ctx repo (ext w) = ((response, Some e), s')
         /\ Execute c ctx w =
            (Returned (ctx, Some e),
             {| trace := trace w
                  ++ [EvVerify ctx (commandargs.CommandType (Args c)) repo];
                ext := s' |}))
  \/ (exists name repo s',
         commandargs.SshArgs (Args c) = [name; repo]
         /\ verdict c ctx repo (ext w) = ((None, None), s')
         /\ Execute c ctx w =
            (Panicked "nil pointer dereference",
             {| trace := trace w
                  ++ [EvVerify ctx (commandargs.CommandType (Args c)) repo];
                ext := s' |}))
  \/ (exists name repo r s1,
         commandargs.SshArgs (Args c) = [name; repo]
         /\ verdict c ctx repo (ext w) = ((Some r, None), s1)
         /\ Execute c ctx w =
            (Returned (ctxWithLogData ctx r, fst (gitalyCall c ctx r s1)),
             {| trace := trace w
                  ++ [EvVerify ctx (commandargs.CommandType (Args c)) repo;
                      EvGitalyCall ctx r];
                ext := snd (gitalyCall c ctx r s1) |})).
Proof.
  destruct (Nat.eq_dec (List.length (commandargs.SshArgs (Args c))) 2)
    as [Hlen|Hlen].
  - right.
    destruct (commandargs.SshArgs (Args c)) as [|name [|repo [|x l]]] eqn:Ha;
      try discriminate Hlen.
    destruct (verdict c ctx repo (ext w)) as [[response [e|]] s'] eqn:Hv.
    + left. exists name, repo, response, e, s'.
      split; [reflexivity|]. split; [assumption|].
      rewrite (Execute_two_args _ _ _ _ _ Ha).
      unfold bind, verifyAccess. unfold verdict in Hv. rewrite Hv.
      reflexivity.
    + destruct response as [r|].
      * right. right. exists name, repo, r, s'.
        split; [reflexivity|]. split; [assumption|].
        rewrite (Execute_two_args _ _ _ _ _ Ha).
        unfold bind, verifyAccess, performGitalyCall, deref, ret.
        unfold verdict in Hv. rewrite Hv. simpl.
        destruct (gitalyCall c ctx r s') as [ge s2]. simpl.
        rewrite <- List.app_assoc. reflexivity.
      * right. left. exists name, repo, s'.
        split; [reflexivity|]. split; [assumption|].
        exact (Execute_nil_response _ _ _ _ _ _ Ha Hv).
  - left. split; [exact Hlen|].
    unfold Execute.
    destruct (Nat.eqb_spec (List.length (commandargs.SshArgs (Args c))) 2)
      as [Heq|_]; [contradiction|reflexivity].
Qed.

Lemma gitalyCalls_verify (t : list Event) (ctx : Context)
      (action repo : string) :
  gitalyCalls (t ++ [EvVerify ctx action repo]) = gitalyCalls t.
Proof.
  rewrite gitalyCalls_app. cbv [gitalyCalls List.filter isGitalyCall].
  simpl. lia.
Qed.

(** X1. No backend call without an approval: in every run in which
    [performGitalyCall] is invoked, the argument vector had two elements,
    the access verifier was asked about the second one, and it answered with
    a nil error and the very response that the backend call received. *)
Theorem backend_call_needs_approval (c : Command) (ctx : Context)
        (w : World) :
  gitalyCalls (trace (snd (Execute c ctx w))) <> gitalyCalls (trace w) ->
  exists name repo r s1,
    commandargs.SshArgs (Args c) = [name; repo]
    /\ verdict c ctx repo (ext w) = ((Some r, None), s1)
    /\ trace (snd (Execute c ctx w)) =
       (trace w
          ++ [EvVerify ctx (commandargs.CommandType (Args c)) repo;
              EvGitalyCall ctx r])%list.
Proof.
  intros Hcall.
  destruct (Execute_cases c ctx w)
    as [[_ E] | [(name & repo & resp & e & s' & Ha & Hv & E)
        | [(name & repo & s' & Ha & Hv & E)
          | (name & repo & r & s1 & Ha & Hv & E)]]];
    rewrite E in Hcall |- *; simpl in Hcall |- *.
  - contradiction.
  - rewrite gitalyCalls_verify in Hcall. contradiction.
  - rewrite gitalyCalls_verify in Hcall. contradiction.
  - exists name, repo, r, s1. repeat split; assumption.
Qed.

(** X2. One request each, at most, and in order: whatever the arguments and
    the collaborators, a run keeps the calls made before it and adds no
    call, or one call to the access verifier, or that call followed by one
    call to the backend; nothing is asked twice. *)
Theorem Execute_calls_at_most_once (c : Command) (ctx : Context)
        (w : World) :
  exists new,
    trace (snd (Execute c ctx w)) = (trace w ++ new)%list
    /\ verifyCalls new <= 1
    /\ gitalyCalls new <= verifyCalls new
    /\ (new = []
        \/ (exists repo,
               new = [EvVerify ctx (commandargs.CommandType (Args c)) repo])
        \/ (exists repo r,
               new = [EvVerify ctx (commandargs.CommandType (Args c)) repo;
                      EvGitalyCall ctx r])).
Proof.
  destruct (Execute_cases c ctx w)
    as [[_ E] | [(name & repo & resp & e & s' & Ha & Hv & E)
        | [(name & repo & s' & Ha & Hv & E)
          | (name & repo & r & s1 & Ha & Hv & E)]]];
    rewrite E; simpl.
  - exists []. rewrite List.app_nil_r.
    repeat split; try (cbv; lia). left. reflexivity.
  - eexists. split; [reflexivity|].
    repeat split; try (cbv; lia). right. left. exists repo. reflexivity.
  - eexists. split; [reflexivity|].
    repeat split; try (cbv; lia). right. left. exists repo. reflexivity.
  - eexists. split; [reflexivity|].
    repeat split; try (cbv; lia). right. right. exists repo, r. reflexivity.
Qed.

(** X3. Whatever a run returns, the returned context answers every key
    other than the string key "logData" as the input context does: the
    correlation id and the client name travel on. *)
Theorem Execute_keeps_other_values (c : Command) (ctx : Context) (w : World)
        (ctx' : Context) (err : option error) (w' : World) (k : key) :
  Execute c ctx w = (Returned (ctx', err), w') ->
  k <> StringKey "logData" ->
  Value ctx' k = Value ctx k.
Proof.
  intros Hrun Hk.
  destruct (Execute_cases c ctx w)
    as [[_ E] | [(name & repo & resp & e & s' & Ha & Hv & E)
        | [(name & repo & s' & Ha & Hv & E)
          | (name & repo & r & s1 & Ha & Hv & E)]]];
    rewrite E in Hrun; try discriminate Hrun;
    injection Hrun as <- _ _; try reflexivity.
  unfold ctxWithLogData. rewrite Value_WithValue.
  destruct (key_eqb (StringKey "logData") k) eqn:Hkey; [|reflexivity].
  apply key_eqb_eq in Hkey. congruence.
Qed.


(** X5. A nil error means that the operation was served: the access
    verifier approved, the backend was called with that approval and
    returned nil, and the returned context is the input context extended
    with the audit record of the approval. *)
Theorem Execute_success_means_served (c : Command) (ctx : Context)
        (w : World) (ctx' : Context) (w' : World) :
  Execute c ctx w = (Returned (ctx', None), w') ->
  exists name repo r s1,
    commandargs.SshArgs (Args c) = [name; repo]
    /\ verdict c ctx repo (ext w) = ((Some r, None), s1)
    /\ gitalyCall c ctx r s1 = (None, ext w')
    /\ ctx' = ctxWithLogData ctx r.
Proof.
  intros Hrun.
  destruct (Execute_cases c ctx w)
    as [[_ E] | [(name & repo & resp & e & s' & Ha & Hv & E)
        | [(name & repo & s' & Ha & Hv & E)
          | (name & repo & r & s1 & Ha & Hv & E)]]];
    rewrite E in Hrun; try discriminate Hrun.
  exists name, repo, r, s1.
  destruct (gitalyCall c ctx r s1) as [ge s2]. simpl in Hrun.
  injection Hrun as <- -> <-. repeat split; assumption.
Qed.

(** X6. The command's name is not looked at: with any two arguments, the
    first call of the run is the one to the access verifier, for the second
    argument as the repository and the command type of the parsed arguments
    as the action. *)
Theorem two_args_reach_the_verifier (c : Command) (ctx : Context)
        (w : World) (name repo : string) :
  commandargs.SshArgs (Args c) = [name; repo] ->
  exists rest,
    trace (snd (Execute c ctx w)) =
    (trace w
       ++ EvVerify ctx (commandargs.CommandType (Args c)) repo :: rest)%list
    /\ verifyCalls rest = 0.
Proof.
  intros Hargs.
  destruct (Execute_cases c ctx w)
    as [[Hlen _] | [(n & p & resp & e & s' & Ha & Hv & E)
        | [(n & p & s' & Ha & Hv & E)
          | (n & p & r & s1 & Ha & Hv & E)]]].
  - rewrite Hargs in Hlen. simpl in Hlen. contradiction.
  - rewrite Hargs in Ha. injection Ha as <- <-.
    rewrite E. simpl. exists []. split; reflexivity.
  - rewrite Hargs in Ha. injection Ha as <- <-.
    rewrite E. simpl. exists []. split; reflexivity.
  - rewrite Hargs in Ha. injection Ha as <- <-.
    rewrite E. simpl. eexists. split; reflexivity.
Qed.

(** X10. [Execute] makes up no error but the sentinel of the arity check
    and wraps none: an error it returns is [disallowedcommand.Error] on a
    wrong arity, or the very error of the access verifier, or the very error
    of the backend after an approval; only in the last case does the
    returned context differ from the input. *)
Theorem Execute_error_provenance (c : Command) (ctx : Context) (w : World)
        (ctx' : Context) (e : error) (w' : World) :
  Execute c ctx w = (Returned (ctx', Some e), w') ->
  (List.length (commandargs.SshArgs (Args c)) <> 2
   /\ e = disallowedcommand_Error /\ ctx' = ctx /\ w' = w)
  \/ (exists name repo,
         commandargs.SshArgs (Args c) = [name; repo]
         /\ snd (fst (verdict c ctx repo (ext w))) = Some e
         /\ ctx' = ctx)
  \/ (exists name repo r s1,
         commandargs.SshArgs (Args c) = [name; repo]
         /\ verdict c ctx repo (ext w) = ((Some r, None), s1)
         /\ fst (gitalyCall c ctx r s1) = Some e
         /\ ctx' = ctxWithLogData ctx r).
Proof.
  intros Hrun.
  destruct (Execute_cases c ctx w)
    as [[Hlen E] | [(name & repo & resp & e0 & s' & Ha & Hv & E)
        | [(name & repo & s' & Ha & Hv & E)
          | (name & repo & r & s1 & Ha & Hv & E)]]];
    rewrite E in Hrun; try discriminate Hrun.
  - injection Hrun as <- <- <-. left. repeat split. exact Hlen.
  - injection Hrun as <- <- _. right. left. exists name, repo.
    rewrite Hv. repeat split. exact Ha.
  - injection Hrun as <- He _. right. right. exists name, repo, r, s1.
    repeat split; assumption.
Qed.

End Pipeline.

Arguments Execute {error} disallowedcommand_Error {S} Verify gitalyCall
  c ctx _.
Arguments verdict {error S} Verify c ctx repo s.
Arguments Build_World {S} trace ext.
Arguments trace {S} _.
Arguments ext {S} _.

(** *** The tests, run on the embedding *)

(** [TestForbiddenAccess]: the error reads as the API wrote it, and the
    Gitaly server heard nothing. *)
Example TestForbiddenAccess :
  Execute fixture.disallowedCommand fixture.forbidden fixture.gitalyOK
          (fixture.setup "disallowed") Background (Build_World [] 0)
  = (Returned (Background, Some fixture.disallowedByAPI),
     Build_World [EvVerify Background "git-upload-archive" "group/repo"] 1).
Proof. reflexivity. Qed.

(** [TestAllowedAccess]: no error, and the audit record under
    ["logData"]. *)
Example TestAllowedAccess :
  let '(out, w) :=
    Execute fixture.disallowedCommand fixture.allowed fixture.gitalyOK
            (fixture.setup "1") fixture.testContext (Build_World [] 0) in
  exists ctxWithLogData data,
    out = Returned (ctxWithLogData, None)
    /\ Value ctxWithLogData (StringKey "logData") = Some (AnyLogData data)
    /\ command.Username data = "alex-doe"
    /\ command.Project (command.Meta data) = "group/project-path"
    /\ Value ctxWithLogData ClientNameKey
       = Some (AnyString "gitlab-shell-tests")
    /\ trace w = [EvVerify fixture.testContext "git-upload-archive"
                           "group/repo";
                  EvGitalyCall fixture.testContext fixture.approval].
Proof. simpl. do 2 eexists. repeat split. Qed.

Lemma Execute_denied_witness :
  (commandargs.SshArgs (Args (fixture.setup "disallowed"))
   = ["git-upload-archive"; "group/repo"]
   /\ verdict fixture.forbidden (fixture.setup "disallowed") Background
              "group/repo" 0
      = ((None, Some fixture.disallowedByAPI), 1))
  /\ exists e' w',
    Execute fixture.disallowedCommand fixture.forbidden fixture.gitalyOK
            (fixture.setup "disallowed") Background (Build_World [] 0)
    = (Returned (Background, Some e'), w')
    /\ e' = fixture.disallowedByAPI
    /\ ErrorText e' = "Disallowed by API call"
    /\ trace w' = [EvVerify Background "git-upload-archive" "group/repo"]
    /\ gitalyCalls (trace w') = 0
    /\ ext w' = 1.
Proof.
  split; [split; reflexivity|].
  exact (Execute_denied fixture.disallowedCommand nat fixture.forbidden
           fixture.gitalyOK (fixture.setup "disallowed") Background
           (Build_World [] 0) "git-upload-archive" "group/repo" None
           fixture.disallowedByAPI 1 eq_refl eq_refl).
Defined.

(** The backend is down: the audit record is in the returned context all
    the same. *)
Lemma Execute_approved_audit_witness :
  (commandargs.SshArgs (Args (fixture.setup "1"))
   = ["git-upload-archive"; "group/repo"]
   /\ verdict fixture.allowed (fixture.setup "1") Background "group/repo" 0
      = ((Some fixture.approval, None), 1))
  /\ exists ctx' w' d,
    Execute fixture.disallowedCommand fixture.allowed fixture.gitalyFails
            (fixture.setup "1") Background (Build_World [] 0)
    = (Returned (ctx', Some fixture.gitalyDown), w')
    /\ Value ctx' (StringKey "logData") = Some (AnyLogData d)
    /\ command.Username d = "alex-doe"
    /\ command.Project (command.Meta d) = "group/project-path"
    /\ command.ProjectID (command.Meta d) = 2%Z
    /\ command.RootNamespaceID (command.Meta d) = 1%Z.
Proof.
  split; [split; reflexivity|].
  exact (Execute_approved_audit fixture.disallowedCommand nat
           fixture.allowed fixture.gitalyFails (fixture.setup "1")
           Background (Build_World [] 0) "git-upload-archive" "group/repo"
           fixture.approval 1 eq_refl eq_refl).
Defined.

Lemma Execute_wrong_arity_witness :
  List.length (commandargs.SshArgs
                 (Args (fixture.withArgs ["git-upload-archive"]))) <> 2
  /\ Execute fixture.disallowedCommand fixture.allowed fixture.gitalyOK
             (fixture.withArgs ["git-upload-archive"]) Background
             (Build_World [] 0)
     = (Returned (Background, Some fixture.disallowedCommand),
        Build_World [] 0).
Proof.
  split; [simpl; lia|].
  apply (Execute_wrong_arity fixture.disallowedCommand nat fixture.allowed
           fixture.gitalyOK (fixture.withArgs ["git-upload-archive"])
           Background (Build_World [] 0)).
  simpl. lia.
Defined.

Lemma Execute_failure_keeps_context_witness :
  snd (fst (verdict fixture.forbidden (fixture.setup "disallowed")
                    fixture.testContext "group/repo" 0)) <> None
  /\ exists ctx' e w',
    Execute fixture.disallowedCommand fixture.forbidden fixture.gitalyOK
            (fixture.setup "disallowed") fixture.testContext
            (Build_World [] 0)
    = (Returned (ctx', Some e), w')
    /\ ctx' = fixture.testContext
    /\ Value ctx' (StringKey "logData")
       = Value fixture.testContext (StringKey "logData").
Proof.
  split; [discriminate|].
  apply (Execute_failure_keeps_context fixture.disallowedCommand nat
           fixture.forbidden fixture.gitalyOK (fixture.setup "disallowed")
           fixture.testContext (Build_World [] 0)).
  right. exists "git-upload-archive", "group/repo".
  split; [reflexivity | discriminate].
Defined.

Lemma Execute_backend_gets_input_context_witness :
  (commandargs.SshArgs (Args (fixture.setup "1"))
   = ["git-upload-archive"; "group/repo"]
   /\ verdict fixture.allowed (fixture.setup "1") fixture.testContext
              "group/repo" 0
      = ((Some fixture.approval, None), 1))
  /\ exists ctx' err w',
    Execute fixture.disallowedCommand fixture.allowed fixture.gitalyOK
            (fixture.setup "1") fixture.testContext (Build_World [] 0)
    = (Returned (ctx', err), w')
    /\ trace w' = [EvVerify fixture.testContext "git-upload-archive"
                            "group/repo";
                   EvGitalyCall fixture.testContext fixture.approval]
    /\ (err, ext w') = (None, 2)
    /\ ctx' <> fixture.testContext
    /\ exists d,
        ctx' = WithValue fixture.testContext (StringKey "logData")
                         (AnyLogData d).
Proof.
  split; [split; reflexivity|].
  exact (Execute_backend_gets_input_context fixture.disallowedCommand nat
           fixture.allowed fixture.gitalyOK (fixture.setup "1")
           fixture.testContext (Build_World [] 0) "git-upload-archive"
           "group/repo" fixture.approval 1 eq_refl eq_refl).
Defined.

(** *** The general properties, on the tests' runs *)

Lemma backend_call_needs_approval_witness :
  gitalyCalls
    (trace (snd (Execute fixture.disallowedCommand fixture.allowed
                         fixture.gitalyOK (fixture.setup "1")
                         fixture.testContext (Build_World [] 0))))
  <> gitalyCalls []
  /\ exists name repo r s1,
      commandargs.SshArgs (Args (fixture.setup "1")) = [name; repo]
      /\ verdict fixture.allowed (fixture.setup "1") fixture.testContext
                 repo 0 = ((Some r, None), s1)
      /\ trace (snd (Execute fixture.disallowedCommand fixture.allowed
                             fixture.gitalyOK (fixture.setup "1")
                             fixture.testContext (Build_World [] 0)))
         = [EvVerify fixture.testContext "git-upload-archive" repo;
            EvGitalyCall fixture.testContext r].
Proof.
  split; [vm_compute; discriminate|].
  refine (backend_call_needs_approval fixture.disallowedCommand nat
            fixture.allowed fixture.gitalyOK (fixture.setup "1")
            fixture.testContext (Build_World [] 0) _).
  vm_compute. discriminate.
Defined.

Lemma Execute_keeps_other_values_witness :
  Value (ctxWithLogData fixture.testContext fixture.approval)
        CorrelationIDKey
  = Some (AnyString "01HZX").
Proof.
  refine (Execute_keeps_other_values fixture.disallowedCommand nat
            fixture.allowed fixture.gitalyOK (fixture.setup "1")
            fixture.testContext (Build_World [] 0)
            (ctxWithLogData fixture.testContext fixture.approval) None
            (Build_World
               [EvVerify fixture.testContext "git-upload-archive"
                         "group/repo";
                EvGitalyCall fixture.testContext fixture.approval] 2)
            CorrelationIDKey eq_refl _).
  discriminate.
Defined.


Lemma Execute_success_means_served_witness :
  exists name repo r s1,
    commandargs.SshArgs (Args (fixture.setup "1")) = [name; repo]
    /\ verdict fixture.allowed (fixture.setup "1") Background repo 0
       = ((Some r, None), s1)
    /\ fixture.gitalyOK (fixture.setup "1") Background r s1 = (None, 2)
    /\ ctxWithLogData Background fixture.approval
       = ctxWithLogData Background r.
Proof.
  exact (Execute_success_means_served fixture.disallowedCommand nat
           fixture.allowed fixture.gitalyOK (fixture.setup "1") Background
           (Build_World [] 0) (ctxWithLogData Background fixture.approval)
           (Build_World
              [EvVerify Background "git-upload-archive" "group/repo";
               EvGitalyCall Background fixture.approval] 2)
           eq_refl).
Defined.

(** Any two strings will do as arguments, the empty repository included. *)
Lemma two_args_reach_the_verifier_witness :
  exists rest,
    trace (snd (Execute fixture.disallowedCommand fixture.forbidden
                        fixture.gitalyOK
                        (fixture.withArgs ["no-such-command"; EmptyString])
                        Background (Build_World [] 0)))
    = EvVerify Background "git-upload-archive" EmptyString :: rest
    /\ verifyCalls rest = 0.
Proof.
  exact (two_args_reach_the_verifier fixture.disallowedCommand nat
           fixture.forbidden fixture.gitalyOK
           (fixture.withArgs ["no-such-command"; EmptyString]) Background
           (Build_World [] 0) "no-such-command" EmptyString eq_refl).
Defined.

Lemma Execute_error_provenance_witness :
  exists name repo r s1,
    commandargs.SshArgs (Args (fixture.setup "1")) = [name; repo]
    /\ verdict fixture.allowed (fixture.setup "1") Background repo 0
       = ((Some r, None), s1)
    /\ fst (fixture.gitalyFails (fixture.setup "1") Background r s1)
       = Some fixture.gitalyDown
    /\ ctxWithLogData Background fixture.approval
       = ctxWithLogData Background r.
Proof.
  destruct (Execute_error_provenance fixture.disallowedCommand nat
              fixture.allowed fixture.gitalyFails (fixture.setup "1")
              Background (Build_World [] 0)
              (ctxWithLogData Background fixture.approval)
              fixture.gitalyDown
              (Build_World
                 [EvVerify Background "git-upload-archive" "group/repo";
                  EvGitalyCall Background fixture.approval] 2)
              eq_refl)
    as [(Hlen & _) | [(name & repo & Ha & Hv & _) | Hserved]].
  - exfalso. apply Hlen. reflexivity.
  - exfalso. injection Ha as <- <-. discriminate Hv.
  - exact Hserved.
Defined.

End uploadarchive.

(** ** The internal API client, through [GetPersonalAccessToken] *)
Module apiclient.
Import json client personalaccesstoken.

Lemma length_append (s t : string) :
  String.length (s ++ t) = String.length s + String.length t.
Proof. induction s as [|a s IH]; simpl; [reflexivity | now rewrite IH]. Qed.

Lemma append_cancel_r (t s1 s2 : string) :
  s1 ++ t = s2 ++ t -> s1 = s2.
Proof.
  intros E.
  assert (L : String.length s1 = String.length s2).
  { apply (f_equal String.length) in E.
    rewrite !length_append in E. lia. }
  revert s2 E L. induction s1 as [|a s1 IH]; intros [|b s2] E L;
    simpl in *; try discriminate; [reflexivity|].
  injection E as -> E. f_equal. apply IH; [assumption | lia].
Qed.

Lemma to_int_normal (z : Z) : Z.to_int z = Decimal.norm (Z.to_int z).
Proof.
  rewrite <- (DecimalZ.to_of (Z.to_int z)), DecimalZ.of_to. reflexivity.
Qed.

(** The decimal numeral of a status code determines the code. *)
Lemma decimal_inj (a b : Z) : decimal a = decimal b -> a = b.
Proof.
  unfold decimal. intros E.
  assert (N : forall z, NilZero.int_of_string
                          (NilZero.string_of_int (Z.to_int z))
                        = Some (Z.to_int z)).
  { intros z. apply NilZero.isi; intros C;
      pose proof (to_int_normal z) as Nz; rewrite C in Nz; discriminate. }
  apply (f_equal NilZero.int_of_string) in E. rewrite !N in E.
  injection E as E. apply (f_equal Z.of_int) in E.
  rewrite !DecimalZ.of_to in E. exact E.
Qed.

Lemma statusError_inj (a b : Z) :
  ErrorText (statusError a) = ErrorText (statusError b) -> a = b.
Proof.
  simpl. intros E. injection E as E.
  apply decimal_inj. exact (append_cancel_r _ _ _ E).
Qed.

Section Issuance.

Variable authority : Request RequestBody -> RoundTrip.
Variable getUser : string -> discover.Response + Error.
Variable secret : string.

Variables (ctx : context.Context) (args : commandargs.Shell).
Variables (name expiresAt : string) (scopes : list string).

Local Abbreviation issue :=
  (GetPersonalAccessToken authority getUser secret ctx args name scopes
                          expiresAt).
Local Abbreviation answered :=
  (answered authority getUser secret ctx args name scopes expiresAt).

Lemma issue_interpret (r : http.Response) :
  answered r ->
  issue = match interpret r with
          | inl j => inl (decode j)
          | inr e => inr e
          end.
Proof.
  intros (body & Hb & Hr).
  unfold GetPersonalAccessToken, call. rewrite Hb.
  unfold sent in Hr. rewrite Hr. reflexivity.
Qed.

(** C4. When the authority answers outside 2xx with a JSON body that has
    a [message], the issuance fails with an error whose text is that
    message, whatever the status code; the fixture's 403 with
    [{"message":"Not allowed!"}] reads "Not allowed!". *)
Theorem message_wins_over_status (r : http.Response) (j : JSON)
        (msg : string) :
  answered r ->
  is2xx (http.StatusCode r) = false ->
  parse (http.Body r) = Some j ->
  field "message" j = Some (JString msg) ->
  (exists e, issue = inr e
             /\ ErrorText e = msg
             /\ Kind e = AuthorityMessage)
  /\ (exists e,
         fixture.GetPersonalAccessToken context.Background
           (fixture.keyId "2") "newtoken" ["api"] EmptyString = inr e
         /\ ErrorText e = "Not allowed!").
Proof.
  intros Ha H2 Hp Hm. split.
  - rewrite (issue_interpret r Ha). unfold interpret, bodyMessage.
    rewrite H2, Hp. unfold messageOf. rewrite Hm.
    eexists. repeat split.
  - eexists. split; [vm_compute; reflexivity | reflexivity].
Qed.

(** C5. When the authority answers 2xx with a body that is not valid
    JSON, the issuance fails with the fixed parsing error, "Parsing
    failed": the same error for every such body. *)
Theorem malformed_body_is_parsing_error (r : http.Response) :
  answered r ->
  is2xx (http.StatusCode r) = true ->
  parse (http.Body r) = None ->
  issue = inr ParsingError
  /\ ErrorText ParsingError = "Parsing failed".
Proof.
  intros Ha H2 Hp. split; [|reflexivity].
  rewrite (issue_interpret r Ha). unfold interpret.
  rewrite H2, Hp. reflexivity.
Qed.

(** C6, as amended. When the authority answers outside 2xx and the body
    carries no message that can be read, the issuance fails with the text
    "Internal API error (<code>)", <code> being the status in decimal;
    the text tells the codes apart; a 403 with an empty body reads
    "Internal API error (403)". *)
Theorem bare_status_error (r : http.Response) :
  answered r ->
  is2xx (http.StatusCode r) = false ->
  bodyMessage (http.Body r) = None ->
  (exists e,
      issue = inr e
      /\ ErrorText e =
         "Internal API error (" ++ decimal (http.StatusCode r) ++ ")"
      /\ forall code',
          ErrorText e = ErrorText (statusError code') ->
          code' = http.StatusCode r)
  /\ (exists e,
         interpret {| http.StatusCode := 403; http.Body := EmptyString |}
         = inr e
         /\ ErrorText e = "Internal API error (403)").
Proof.
  intros Ha H2 Hm. split.
  - rewrite (issue_interpret r Ha). unfold interpret.
    rewrite H2, Hm. eexists. split; [reflexivity|].
    split; [reflexivity|].
    intros code' E. symmetry. exact (statusError_inj _ _ E).
  - eexists. split; reflexivity.
Qed.

(** On a 2xx answer whose envelope has no [success: true] and carries a
    message, the issuance fails with the ordinary authority-message error,
    whose only variable part besides the status is the message. *)
Lemma reported_failure (r : http.Response) (j : JSON) (msg : string) :
  answered r ->
  is2xx (http.StatusCode r) = true ->
  parse (http.Body r) = Some j ->
  successOf j = false ->
  field "message" j = Some (JString msg) ->
  issue = inr (authorityError msg (http.StatusCode r)).
Proof.
  intros Ha H2 Hp Hs Hm.
  rewrite (issue_interpret r Ha). unfold interpret, bodyMessage.
  rewrite H2, Hp, Hs. unfold messageOf. rewrite Hm. reflexivity.
Qed.

(** On success the expiry of the result is the string that the authority
    sent, whatever it is. *)
Lemma expiry_verbatim (r : http.Response) (j : JSON) (expiry : string) :
  answered r ->
  is2xx (http.StatusCode r) = true ->
  parse (http.Body r) = Some j ->
  successOf j = true ->
  field "expires_at" j = Some (JString expiry) ->
  exists result, issue = inl result /\ ExpiresAt_ result = expiry.
Proof.
  intros Ha H2 Hp Hs He.
  rewrite (issue_interpret r Ha). unfold interpret.
  rewrite H2, Hp, Hs. eexists. split; [reflexivity|].
  simpl. unfold stringField. rewrite He. reflexivity.
Qed.

(** C7. Against the fixture, the issuance for key id "0" with the scopes
    read_api and read_repository succeeds with the token
    "aAY1G3YPeemECgUvxuXY", the requested scopes and the expiry
    "9001-11-17"; and on any success the expiry of the result is the string
    of the authority's [expires_at], whatever it holds. *)
Theorem issuance_by_key_id (r : http.Response) (j : JSON) (expiry : string) :
  answered r ->
  is2xx (http.StatusCode r) = true ->
  parse (http.Body r) = Some j ->
  successOf j = true ->
  field "expires_at" j = Some (JString expiry) ->
  (exists result, issue = inl result /\ ExpiresAt_ result = expiry)
  /\ fixture.GetPersonalAccessToken context.Background (fixture.keyId "0")
       "newtoken" ["read_api"; "read_repository"] EmptyString
     = inl {| Success := true;
              Token := "aAY1G3YPeemECgUvxuXY";
              Scopes_ := ["read_api"; "read_repository"];
              ExpiresAt_ := "9001-11-17";
              Message := EmptyString |}.
Proof.
  intros Ha H2 Hp Hs He. split.
  - exact (expiry_verbatim r j expiry Ha H2 Hp Hs He).
  - vm_compute. reflexivity.
Qed.

(** C8. An envelope without [success: true] that carries a message makes
    the issuance fail with the authority-message error of that message, the
    same kind of error for every message; against the fixture, key id "1"
    fails with the text "missing user". *)
Theorem missing_user_is_a_message (r : http.Response) (j : JSON)
        (msg : string) :
  answered r ->
  is2xx (http.StatusCode r) = true ->
  parse (http.Body r) = Some j ->
  successOf j = false ->
  field "message" j = Some (JString msg) ->
  issue = inr (authorityError msg (http.StatusCode r))
  /\ Kind (authorityError msg (http.StatusCode r)) = AuthorityMessage
  /\ (exists e,
         fixture.GetPersonalAccessToken context.Background
           (fixture.keyId "1") "newtoken" ["api"] EmptyString = inr e
         /\ e = authorityError "missing user" 200
         /\ ErrorText e = "missing user").
Proof.
  intros Ha H2 Hp Hs Hm. split; [|split].
  - exact (reported_failure r j msg Ha H2 Hp Hs Hm).
  - reflexivity.
  - eexists. split; [vm_compute; reflexivity|]. split; reflexivity.
Qed.

End Issuance.

(** *** The wire format, on the fixture's bodies *)

Example fixture_body_forbidden :
  fixture.response "2" ["api"]
  = {| http.StatusCode := 403;
       http.Body := "{" ++ quote "message" ++ ":" ++ quote "Not allowed!"
                        ++ "}" ++ str (ascii_of_nat 10) |}
  /\ bodyMessage (http.Body (fixture.response "2" ["api"]))
     = Some "Not allowed!".
Proof. split; vm_compute; reflexivity. Qed.

Example fixture_body_truncated :
  http.Body (fixture.response "3" ["api"])
  = "{ " ++ quote "message" ++ ": " ++ quote "broken json!"
  /\ parse (http.Body (fixture.response "3" ["api"])) = None
  /\ parse (http.Body (fixture.response "3" ["api"]) ++ "}")
     = Some (JObject [("message", JString "broken json!")]).
Proof. repeat split; vm_compute; reflexivity. Qed.

Example parse_encode_fixture :
  parse (http.Body (fixture.response "0" ["api"]))
  = Some (JObject [("expires_at", JString "9001-11-17");
                   ("scopes", JArray [JString "read_api";
                                     JString "read_repository"]);
                   ("success", JBool true);
                   ("token", JString "aAY1G3YPeemECgUvxuXY")]).
Proof. vm_compute. reflexivity. Qed.

(** *** The tests of [client_test.go], run on the model *)

Example TestGetRecoveryCodesByUsername :
  fixture.GetPersonalAccessToken context.Background
    (fixture.username "jane-doe") "newtoken" ["api"] EmptyString
  = inl {| Success := true; Token := "YXuxvUgCEmeePY3G1YAa";
           Scopes_ := ["api"]; ExpiresAt_ := EmptyString;
           Message := EmptyString |}.
Proof. vm_compute. reflexivity. Qed.

Example TestErrorResponses :
  List.map
    (fun id =>
       match fixture.GetPersonalAccessToken context.Background
               (fixture.keyId id) "newtoken" ["api"] EmptyString with
       | inl _ => None
       | inr e => Some (ErrorText e)
       end) ["2"; "3"; "4"]
  = [Some "Not allowed!"; Some "Parsing failed";
     Some "Internal API error (403)"].
Proof. vm_compute. reflexivity. Qed.

Lemma fixture_answered (id : string) (scopes : list string) :
  id <> EmptyString ->
  fixture.answered context.Background (fixture.keyId id) "newtoken" scopes
                   EmptyString (fixture.response id scopes).
Proof.
  intros Hid. exists (fixture.envelope id scopes). split.
  - unfold getRequestBody, fixture.keyId. simpl.
    destruct (String.eqb_spec id EmptyString) as [E|_]; [contradiction|].
    reflexivity.
  - reflexivity.
Qed.

Lemma message_wins_over_status_witness :
  (is2xx (http.StatusCode (fixture.response "2" ["api"])) = false
   /\ parse (http.Body (fixture.response "2" ["api"]))
      = Some (JObject [("message", JString "Not allowed!")]))
  /\ exists e,
      fixture.GetPersonalAccessToken context.Background (fixture.keyId "2")
        "newtoken" ["api"] EmptyString = inr e
      /\ ErrorText e = "Not allowed!"
      /\ Kind e = AuthorityMessage.
Proof.
  split; [split; vm_compute; reflexivity|].
  refine (proj1 (message_wins_over_status fixture.server fixture.getUser
                   EmptyString context.Background (fixture.keyId "2")
                   "newtoken" EmptyString ["api"]
                   (fixture.response "2" ["api"])
                   (JObject [("message", JString "Not allowed!")])
                   "Not allowed!" _ _ _ _)).
  - apply fixture_answered. discriminate.
  - reflexivity.
  - vm_compute. reflexivity.
  - reflexivity.
Defined.

Lemma malformed_body_is_parsing_error_witness :
  (is2xx (http.StatusCode (fixture.response "3" ["api"])) = true
   /\ parse (http.Body (fixture.response "3" ["api"])) = None)
  /\ fixture.GetPersonalAccessToken context.Background (fixture.keyId "3")
       "newtoken" ["api"] EmptyString = inr ParsingError.
Proof.
  split; [split; vm_compute; reflexivity|].
  refine (proj1 (malformed_body_is_parsing_error fixture.server
                   fixture.getUser EmptyString context.Background
                   (fixture.keyId "3") "newtoken" EmptyString ["api"]
                   (fixture.response "3" ["api"]) _ _ _)).
  - apply fixture_answered. discriminate.
  - reflexivity.
  - vm_compute. reflexivity.
Defined.

Lemma bare_status_error_witness :
  (is2xx (http.StatusCode (fixture.response "4" ["api"])) = false
   /\ bodyMessage (http.Body (fixture.response "4" ["api"])) = None)
  /\ exists e,
      fixture.GetPersonalAccessToken context.Background (fixture.keyId "4")
        "newtoken" ["api"] EmptyString = inr e
      /\ ErrorText e = "Internal API error (" ++ decimal 403 ++ ")"
      /\ forall code', ErrorText e = ErrorText (statusError code') ->
                       code' = 403%Z.
Proof.
  split; [split; vm_compute; reflexivity|].
  refine (proj1 (bare_status_error fixture.server fixture.getUser
                   EmptyString context.Background (fixture.keyId "4")
                   "newtoken" EmptyString ["api"]
                   (fixture.response "4" ["api"]) _ _ _)).
  - apply fixture_answered. discriminate.
  - reflexivity.
  - vm_compute. reflexivity.
Defined.

(** C6, as the claim words it: the format with a small initial letter is not
    the text that a 403 with an empty body produces. *)
Lemma small_initial_format_fails :
  is2xx (http.StatusCode (fixture.response "4" ["api"])) = false
  /\ http.Body (fixture.response "4" ["api"]) = EmptyString
  /\ exists e,
      fixture.GetPersonalAccessToken context.Background (fixture.keyId "4")
        "newtoken" ["api"] EmptyString = inr e
      /\ ErrorText e
         <> "internal API error ("
              ++ decimal (http.StatusCode (fixture.response "4" ["api"]))
              ++ ")".
Proof.
  split; [reflexivity|]. split; [reflexivity|].
  eexists. split; [vm_compute; reflexivity|].
  vm_compute. discriminate.
Qed.

Lemma issuance_by_key_id_witness :
  (is2xx 200 = true
   /\ successOf (fixture.obj
                   [("expires_at", JString "the day after tomorrow");
                    ("scopes", fixture.strs ["api"]);
                    ("success", JBool true);
                    ("token", JString "t0k3n")]) = true)
  /\ exists result,
      GetPersonalAccessToken fixture.oddExpiry fixture.getUser EmptyString
        context.Background (fixture.keyId "0") "newtoken" ["api"]
        EmptyString = inl result
      /\ ExpiresAt_ result = "the day after tomorrow".
Proof.
  split; [split; reflexivity|].
  refine (proj1 (issuance_by_key_id fixture.oddExpiry fixture.getUser
                   EmptyString context.Background (fixture.keyId "0")
                   "newtoken" EmptyString ["api"]
                   _
                   (fixture.obj
                      [("expires_at", JString "the day after tomorrow");
                       ("scopes", fixture.strs ["api"]);
                       ("success", JBool true);
                       ("token", JString "t0k3n")])
                   "the day after tomorrow" _ _ _ _ _)).
  - eexists. split; reflexivity.
  - reflexivity.
  - vm_compute. reflexivity.
  - reflexivity.
  - reflexivity.
Defined.

Lemma missing_user_is_a_message_witness :
  (is2xx (http.StatusCode (fixture.response "1" ["api"])) = true
   /\ parse (http.Body (fixture.response "1" ["api"]))
      = Some (JObject [("message", JString "missing user");
                       ("success", JBool false)]))
  /\ fixture.GetPersonalAccessToken context.Background (fixture.keyId "1")
       "newtoken" ["api"] EmptyString
     = inr (authorityError "missing user" 200).
Proof.
  split; [split; vm_compute; reflexivity|].
  refine (proj1 (missing_user_is_a_message fixture.server fixture.getUser
                   EmptyString context.Background (fixture.keyId "1")
                   "newtoken" EmptyString ["api"]
                   (fixture.response "1" ["api"])
                   (JObject [("message", JString "missing user");
                             ("success", JBool false)])
                   "missing user" _ _ _ _ _)).
  - apply fixture_answered. discriminate.
  - reflexivity.
  - vm_compute. reflexivity.
  - reflexivity.
  - reflexivity.
Defined.

(** *** The handler of the fixture, on every request *)

(** X7. The handler of the token endpoint answers 403 for the key ids "2"
    and "4" and 200 for every other request, whatever the user id: the
    envelope written for user id 1 comes after the status line and does not
    change it. *)
Theorem handler_status (b : RequestBody) :
  http.StatusCode
    (http.Result (fixture.personal_access_token b http.NewRecorder))
  = if (String.eqb (KeyID b) "2" || String.eqb (KeyID b) "4")%bool
    then http.StatusForbidden else http.StatusOK.
Proof.
  destruct b as [k u n sc ex].
  unfold fixture.personal_access_token. cbn [KeyID UserID].
  destruct (String.eqb_spec k "0") as [->|N0];
    [destruct (u =? 1)%Z; reflexivity|].
  destruct (String.eqb_spec k "1") as [->|N1];
    [destruct (u =? 1)%Z; reflexivity|].
  destruct (String.eqb_spec k "2") as [->|N2];
    [destruct (u =? 1)%Z; reflexivity|].
  destruct (String.eqb_spec k "3") as [->|N3];
    [destruct (u =? 1)%Z; reflexivity|].
  destruct (String.eqb_spec k "4") as [->|N4];
    destruct (u =? 1)%Z; reflexivity.
Qed.

(** X8. The handler writes no body exactly when the key id is none of "0",
    "1", "2", "3" and the user id is not 1; key id "4" is the one it answers
    with a status and nothing else. *)
Theorem handler_silent (b : RequestBody) :
  http.Body (http.Result (fixture.personal_access_token b http.NewRecorder))
  = EmptyString
  <-> (KeyID b <> "0" /\ KeyID b <> "1" /\ KeyID b <> "2" /\ KeyID b <> "3"
       /\ UserID b <> 1%Z).
Proof.
  destruct b as [k u n sc ex].
  unfold fixture.personal_access_token. cbn [KeyID UserID].
  destruct (String.eqb_spec k "0") as [->|N0].
  { split; [destruct (u =? 1)%Z; vm_compute; discriminate|].
    intros (C & _). contradiction C. reflexivity. }
  destruct (String.eqb_spec k "1") as [->|N1].
  { split; [destruct (u =? 1)%Z; vm_compute; discriminate|].
    intros (_ & C & _). contradiction C. reflexivity. }
  destruct (String.eqb_spec k "2") as [->|N2].
  { split; [destruct (u =? 1)%Z; vm_compute; discriminate|].
    intros (_ & _ & C & _). contradiction C. reflexivity. }
  destruct (String.eqb_spec k "3") as [->|N3].
  { split; [destruct (u =? 1)%Z; vm_compute; discriminate|].
    intros (_ & _ & _ & C & _). contradiction C. reflexivity. }
  assert (Hrest :
            http.Body
              (http.Result
                 (if String.eqb k "4"
                  then http.WriteHeader http.StatusForbidden http.NewRecorder
                  else http.NewRecorder)) = EmptyString).
  { destruct (String.eqb k "4"); reflexivity. }
  destruct (Z.eqb_spec u 1) as [->|Nu].
  - split; [|intros (_ & _ & _ & _ & C); contradiction C; reflexivity].
    destruct (String.eqb k "4"); vm_compute; discriminate.
  - split; [intros _; repeat split; assumption | intros _; exact Hrest].
Qed.

(** X9. For user id 1 the handler does not replace what the key id made it
    write: the body is that of the same request without the user id,
    followed by the envelope of user id 1, and the status is unchanged. *)
Theorem handler_second_write_appends (b : RequestBody) :
  UserID b = 1%Z ->
  let b0 := {| KeyID := KeyID b; UserID := 0; Name := Name b;
               Scopes := Scopes b; ExpiresAt := ExpiresAt b |} in
  let first :=
    http.Result (fixture.personal_access_token b0 http.NewRecorder) in
  http.Result (fixture.personal_access_token b http.NewRecorder)
  = {| http.StatusCode := http.StatusCode first;
       http.Body :=
         http.Body first
         ++ encode (fixture.obj
                      [("expires_at", JNull);
                       ("scopes", fixture.strs ["api"]);
                       ("success", JBool true);
                       ("token", JString "YXuxvUgCEmeePY3G1YAa")])
         ++ str (ascii_of_nat 10) |}.
Proof.
  destruct b as [k u n sc ex]. cbn [KeyID UserID Name Scopes ExpiresAt].
  intros ->. unfold fixture.personal_access_token. cbn [KeyID UserID].
  destruct (String.eqb_spec k "0") as [->|N0]; [reflexivity|].
  destruct (String.eqb_spec k "1") as [->|N1]; [reflexivity|].
  destruct (String.eqb_spec k "2") as [->|N2]; [reflexivity|].
  destruct (String.eqb_spec k "3") as [->|N3]; [reflexivity|].
  destruct (String.eqb_spec k "4") as [->|N4]; reflexivity.
Qed.

Lemma handler_second_write_appends_witness :
  http.Result
    (fixture.personal_access_token
       {| KeyID := "4"; UserID := 1; Name := "newtoken"; Scopes := ["api"];
          ExpiresAt := None |} http.NewRecorder)
  = {| http.StatusCode := 403;
       http.Body :=
         EmptyString
         ++ encode (fixture.obj
                      [("expires_at", JNull);
                       ("scopes", fixture.strs ["api"]);
                       ("success", JBool true);
                       ("token", JString "YXuxvUgCEmeePY3G1YAa")])
         ++ str (ascii_of_nat 10) |}.
Proof.
  exact (handler_second_write_appends
           {| KeyID := "4"; UserID := 1; Name := "newtoken";
              Scopes := ["api"]; ExpiresAt := None |} eq_refl).
Defined.

End apiclient.
